(** * RecipeAPI: the recipe resource, its search-and-pagination helper
      and its CRUD handlers

    A shallow embedding of [app/apis/helper.py] and [app/apis/recipes.py].

    Python values are modelled as follows.
    - [str] is [string]; [str.lower] is the ASCII case folding [lower]
      (the model covers 8-bit text, where only [A]..[Z] have a lower-case
      partner), [a in b] on strings is [contains a b].
    - [int] is [Z]; [None] is the [None] of [option].
    - The table behind [Recipe.query] is a list of rows in storage order
      together with the next identifier the storage layer will hand out;
      every handler takes the database and returns its response together
      with the database after [db.session.commit()].
    - A handler's return value is a body and an HTTP status; a bare
      dictionary is answered with status 200.
    - A call that can fail returns a [Result]: the value it returns or the
      exception it raises. *)

From Stdlib Require Import ZArith List Bool Ascii String DecimalString Lia.
Import ListNotations.

Local Open Scope string_scope.
Local Open Scope Z_scope.

(* ================================================================== *)
(** ** Python strings *)

Module Py.

Definition ord (c : ascii) : nat := nat_of_ascii c.

Definition is_upper (c : ascii) : bool :=
  (Nat.leb 65 (ord c) && Nat.leb (ord c) 90)%bool.

Definition is_lower (c : ascii) : bool :=
  (Nat.leb 97 (ord c) && Nat.leb (ord c) 122)%bool.

(** A letter of either case. *)
Definition is_alpha (c : ascii) : bool := (is_upper c || is_lower c)%bool.

Definition is_space (c : ascii) : bool := Ascii.eqb c " "%char.

Definition lower_char (c : ascii) : ascii :=
  if is_upper c then ascii_of_nat (ord c + 32) else c.

(** [s.lower()] *)
Fixpoint lower (s : string) : string :=
  match s with
  | EmptyString => EmptyString
  | String c s' => String (lower_char c) (lower s')
  end.

(** [s.startswith(p)] *)
Fixpoint starts_with (p s : string) : bool :=
  match p, s with
  | EmptyString, _ => true
  | String _ _, EmptyString => false
  | String a p', String b s' => (Ascii.eqb a b && starts_with p' s')%bool
  end.

(** [q in s]: [q] occurs in [s] as a contiguous run of characters. *)
Fixpoint contains (q s : string) : bool :=
  (starts_with q s ||
   match s with
   | EmptyString => false
   | String _ s' => contains q s'
   end)%bool.

(** Truth value of a string object: only the empty string is false. *)
Definition str_truthy (s : string) : bool :=
  match s with EmptyString => false | String _ _ => true end.

(** Truth value of [None]-or-string, as tested by [if q:] and
    [if not recipe_name:]. *)
Definition truthy (o : option string) : bool :=
  match o with None => false | Some s => str_truthy s end.

(** [str(n)] for an integer, as interpolated by an f-string. *)
Definition str (n : Z) : string := NilZero.string_of_int (Z.to_int n).

End Py.

(* ================================================================== *)
(** ** The naming policy *)

Definition allowed_char (c : ascii) : bool :=
  (Py.is_alpha c || Py.is_space c)%bool.

(** Modelled from the spec: [name_validator] is imported from
    [app/validation_helper.py], which is not part of the source tree.
    Section 4.1 of the specification gives its contract: the raw string is
    accepted iff it has at least one character and every character is a
    letter or a space.  The definition reads the string the way a matcher
    for one-or-more characters of the class letter-or-space does. *)
Fixpoint name_validator (name : string) : bool :=
  match name with
  | EmptyString => false
  | String c EmptyString => allowed_char c
  | String c rest => (allowed_char c && name_validator rest)%bool
  end.

(** The policy in the specification's words. *)
Definition alphabetic (c : ascii) : Prop :=
  (65 <= Py.ord c <= 90)%nat \/ (97 <= Py.ord c <= 122)%nat.

Definition letters_and_spaces (s : string) : Prop :=
  Forall (fun c => alphabetic c \/ c = " "%char) (list_ascii_of_string s).

(* ================================================================== *)
(** ** Storage *)

(** Modelled from the spec: the entity class of [app/models/recipe.py] is
    not part of the source tree.  Section 3 of the specification and the
    attribute accesses of the handlers give its columns; the description
    passed to the constructor is kept in the column [ingredients]. *)
Record Recipe : Type := mkRecipe {
  recipe_id : Z;
  recipe_name : string;
  ingredients : string;
  category_id : Z;
  created_by : Z
}.

(** The table and the identifier the storage layer assigns to the next
    row that is committed. *)
Record Db : Type := mkDb {
  table : list Recipe;
  next_id : Z
}.

Definition empty_db : Db := {| table := []; next_id := 1 |}.

(** A query object, [Recipe.query.filter_by(...)]: the rows it selects, in
    storage order. *)
Definition BaseQuery : Type := list Recipe.

Definition filter_by (p : Recipe -> bool) (d : Db) : BaseQuery :=
  filter p (table d).

(** [query.all()] *)
Definition all (query : BaseQuery) : list Recipe := query.

(** [query.first()] *)
Definition first (query : BaseQuery) : option Recipe := hd_error query.

(** Truth value of the first argument of [manage_get].  The argument is
    [None] or a query object; a query object defines neither [__bool__]
    nor [__len__], so Python's truth test answers true for it whatever
    rows it selects. *)
Definition query_truthy (the_recipes : option BaseQuery) : bool :=
  match the_recipes with None => false | Some _ => true end.

(** [db.session.add(a_recipe); db.session.commit()] for a new object: the
    row is appended and receives the next identifier. *)
Definition insert (name description : string) (category user : Z) (d : Db)
  : Recipe * Db :=
  let a_recipe := mkRecipe (next_id d) name description category user in
  (a_recipe, {| table := table d ++ [a_recipe]; next_id := next_id d + 1 |}).

(** The first row satisfying [p] is replaced by its image under [f]. *)
Fixpoint update_first (p : Recipe -> bool) (f : Recipe -> Recipe)
  (l : list Recipe) : list Recipe :=
  match l with
  | [] => []
  | r :: l' => if p r then f r :: l' else r :: update_first p f l'
  end.

(** The first row satisfying [p] is removed. *)
Fixpoint remove_first (p : Recipe -> bool) (l : list Recipe) : list Recipe :=
  match l with
  | [] => []
  | r :: l' => if p r then l' else r :: remove_first p l'
  end.

(* ================================================================== *)
(** ** Requests and responses *)

(** One entry of a parsed-arguments mapping: the key is missing, or it is
    bound to [None] or to a value. *)
Inductive Field (A : Type) : Type :=
| Missing : Field A
| Given : option A -> Field A.
Arguments Missing {A}.
Arguments Given {A} _.

(** [args.get(key, default)] *)
Definition get {A : Type} (f : Field A) (default : A) : option A :=
  match f with
  | Missing => Some default
  | Given v => v
  end.

(** The arguments read by [manage_get]. *)
Record Args : Type := mkArgs {
  arg_q : Field string;
  arg_page : Field Z;
  arg_per_page : Field Z
}.

(** The two values [manage_get] passes to [jsonify].  At line 38 it is the
    [data] of the dump of one record; at line 46 it is the whole result of
    the dump of a list, its [data] together with its [errors].  The schema
    class comes from [app/serializers.py], which is not part of the source
    tree, so a dump is kept as the records it was made from. *)
Inductive Payload : Type :=
| DumpData (a_recipe : Recipe)
| DumpResult (recipes : list Recipe).

Inductive Body : Type :=
| Message (message : string)
    (** [{'message': message}] *)
| StatusMessage (status message : string)
    (** [{'status': status, 'message': message}] *)
| StatusMessageId (status message : string) (new_id : Z)
    (** [{'status': status, 'message': message, 'recipe_id': new_id}] *)
| Jsonified (payload : Payload).
    (** a JSON rendering of [payload] *)

Definition Response : Type := (Body * Z)%type.

(** A return value without an explicit status. *)
Definition ok (b : Body) : Response := (b, 200).

(** The exceptions the modelled code raises. *)
Inductive Exception : Type :=
| TypeError
| AttributeError
| OverflowError.

(** What a call yields: the value it returns, or the exception it
    raises. *)
Inductive Result (A : Type) : Type :=
| Return : A -> Result A
| Raise : Exception -> Result A.
Arguments Return {A} _.
Arguments Raise {A} _.

Definition Outcome : Type := Result Response.

(** The status of an outcome, when there is one. *)
Definition status_of (o : Outcome) : option Z :=
  match o with
  | Return resp => Some (snd resp)
  | Raise _ => None
  end.

(** The name [jsonify] as [import jsonify] binds it at line 5 of
    [helper.py]: a module, and calling a module raises [TypeError]. *)
Definition jsonify_module (payload : Payload) : Outcome := Raise TypeError.

(** The function [flask.jsonify]: a response with status 200 whose body
    renders the payload. *)
Definition jsonify_flask (payload : Payload) : Outcome :=
  Return (ok (Jsonified payload)).

(* ================================================================== *)
(** ** [app/apis/helper.py] *)

Section Helper.

(** What the name [jsonify] denotes when it is called at lines 38 and 46.
    The helper is parametric in it; [jsonify_module] is the binding the
    file has, [jsonify_flask] the function of that name. *)
Variable jsonify : Payload -> Outcome.

(** [the_recipes.paginate(page, per_page, error_out=False)] followed by
    [.items]: a call into the storage library, which is not part of the
    source tree.  It yields the records of the page or raises; the helper
    is parametric in it. *)
Variable paginate : BaseQuery -> option Z -> Z -> Result (list Recipe).

(** The page-size bounds are imported from [app/apis/categories.py], which
    is not part of the source tree; the helper is parametric in them. *)
Variables per_page_min per_page_max : Z.

(** The page size [manage_get] hands to [paginate]: lines 27 to 31. *)
Definition effective_per_page (args : Args) : Z :=
  let per_page := get (arg_per_page args) 10 in
  let per_page :=
    match per_page with
    | None => per_page_min
    | Some n => if n <? per_page_min then per_page_min else n
    end in
  if per_page >? per_page_max then per_page_max else per_page.

(** The search loop of lines 33 to 38: the first record, in the order of
    [the_recipes.all()], whose lower-cased name contains the lower-cased
    search string. *)
Definition search (q : string) (query : BaseQuery) : option Recipe :=
  let q := Py.lower q in
  find (fun a_recipe => Py.contains q (Py.lower (recipe_name a_recipe)))
       (all query).

Definition manage_get (the_recipes : option BaseQuery) (args : Args)
  : Outcome :=
  if query_truthy the_recipes then
    let query := match the_recipes with Some query => query | None => [] end in
    let q := get (arg_q args) "" in
    let page := get (arg_page args) 1 in
    let per_page := effective_per_page args in
    let found :=
      if Py.truthy q
      then match q with Some q' => search q' query | None => None end
      else None in
    match found with
    | Some a_recipe => jsonify (DumpData a_recipe)
    | None =>
        match paginate query page per_page with
        | Return paginated => jsonify (DumpResult paginated)
        | Raise e => Raise e
        end
    end
  else Return (ok (Message "There are no recipes")).

End Helper.

(* ================================================================== *)
(** ** [app/apis/recipes.py] *)

(** The filters of the handlers. *)
Definition owned_by (user_id : Z) (r : Recipe) : bool :=
  created_by r =? user_id.

Definition in_category (user_id category : Z) (r : Recipe) : bool :=
  (created_by r =? user_id) && (category_id r =? category).

Definition named (user_id category : Z) (name : string) (r : Recipe) : bool :=
  (created_by r =? user_id) && (category_id r =? category)
  && String.eqb (recipe_name r) name.

Definition with_id (user_id category rid : Z) (r : Recipe) : bool :=
  (created_by r =? user_id) && (category_id r =? category)
  && (recipe_id r =? rid).

Section Handlers.

(** [manage_get_recipes] and [manage_get_recipe] are imported from
    [app/get_helper.py], which is not part of the source tree; the read
    handlers are parametric in them. *)
Variable manage_get_recipes : option BaseQuery -> Args -> Response.
Variable manage_get_recipe : Recipe -> Response.

(** [Recipess.get]: all recipes of the caller. *)
Definition Recipess_get (d : Db) (user_id : Z) (args : Args) : Response :=
  let the_recipes := filter_by (owned_by user_id) d in
  manage_get_recipes (Some the_recipes) args.

(** [Recipes.get]: the caller's recipes in one category. *)
Definition Recipes_get (d : Db) (user_id category : Z) (args : Args)
  : Response :=
  let the_recipes := filter_by (in_category user_id category) d in
  match all the_recipes with
  | [] => (Message ("No recipes in category " ++ Py.str category), 404)
  | _ :: _ => manage_get_recipes (Some the_recipes) args
  end.

(** [Recipee.get]: one recipe by identifier. *)
Definition Recipee_get (d : Db) (user_id category rid : Z) : Response :=
  match first (filter_by (with_id user_id category rid) d) with
  | Some the_recipe => manage_get_recipe the_recipe
  | None =>
      (Message ("You don't have a recipe with id " ++ Py.str rid), 404)
  end.

End Handlers.

(** [Recipes.post]: create a recipe.  The parser requires both arguments
    to be present; a description sent as JSON [null] reaches the body as
    [None], and [description.lower()] at line 108 then raises
    [AttributeError] before anything is looked up or stored. *)
Definition Recipes_post (d : Db) (user_id category : Z)
  (name : string) (description : option string) : Outcome * Db :=
  if name_validator name then
    let recipe_name' := Py.lower name in
    match description with
    | None => (Raise AttributeError, d)
    | Some description =>
        let description' := Py.lower description in
        match first (filter_by (named user_id category recipe_name') d) with
        | Some _ => (Return (ok (Message "Recipe already exists")), d)
        | None =>
            let '(a_recipe, d') :=
              insert recipe_name' description' category user_id d in
            (Return (StatusMessageId "Success" "Recipe has been created"
                       (recipe_id a_recipe), 201), d')
        end
    end
  else
    (Return (Message (name ++ " is not a valid name. Recipe names "
                      ++ "can only comprise of alphabetical characters and can be more "
                      ++ "than one word"), 400), d).

(** [Recipee.put]: edit a recipe.  Both arguments are optional. *)
Definition Recipee_put (d : Db) (user_id category rid : Z)
  (name description : option string) : Response * Db :=
  match first (filter_by (with_id user_id category rid) d) with
  | None => ((Message ("No recipe with id " ++ Py.str rid), 404), d)
  | Some the_recipe =>
      let recipe_name' :=
        if negb (Py.truthy name) then recipe_name the_recipe
        else match name with Some s => s | None => "" end in
      let description' :=
        if negb (Py.truthy description) then ingredients the_recipe
        else match description with Some s => s | None => "" end in
      let recipe_name' := Py.lower recipe_name' in
      let description' := Py.lower description' in
      if name_validator recipe_name' then
        let edit (r : Recipe) : Recipe :=
          mkRecipe (recipe_id r) recipe_name' description'
                   (category_id r) (created_by r) in
        (ok (StatusMessage "Success" "Recipe details successfully edited"),
         {| table := update_first (with_id user_id category rid) edit (table d);
            next_id := next_id d |})
      else
        (ok (Message ("The recipe name should comprise alphabetical"
                      ++ " characters and can be more than one word")), d)
  end.

(** [Recipee.delete]: remove a recipe. *)
Definition Recipee_delete (d : Db) (user_id category rid : Z)
  : Response * Db :=
  match first (filter_by (with_id user_id category rid) d) with
  | None => (ok (Message ("recipe id " ++ Py.str rid ++ " does not exist")), d)
  | Some _ =>
      (ok (Message "Recipe was deleted"),
       {| table := remove_first (with_id user_id category rid) (table d);
          next_id := next_id d |})
  end.

(* ================================================================== *)
(** ** Stores the handlers can produce, and their invariants *)

(** The databases that arise from the empty one by the three mutating
    handlers, whatever their arguments and outcomes. *)
Inductive reachable : Db -> Prop :=
| reach_empty :
    reachable empty_db
| reach_post d user_id category name description :
    reachable d ->
    reachable (snd (Recipes_post d user_id category name description))
| reach_put d user_id category rid name description :
    reachable d ->
    reachable (snd (Recipee_put d user_id category rid name description))
| reach_delete d user_id category rid :
    reachable d ->
    reachable (snd (Recipee_delete d user_id category rid)).

(** What every stored row satisfies: its name passes the policy, and name
    and description are in lower case. *)
Definition stored_ok (r : Recipe) : Prop :=
  name_validator (recipe_name r) = true /\
  Py.lower (recipe_name r) = recipe_name r /\
  Py.lower (ingredients r) = ingredients r.

(** The key under which names must not repeat: owner, category and the
    name folded to lower case. *)
Definition scope_key (r : Recipe) : Z * Z * string :=
  (created_by r, category_id r, Py.lower (recipe_name r)).

(** No two rows have the same owner and category and names that are equal
    up to case. *)
Definition unique_names (l : list Recipe) : Prop :=
  NoDup (map scope_key l).

(** The search string [q] occurs in the name of [r] up to case. *)
Definition matches (q : string) (r : Recipe) : Prop :=
  exists pre post,
    Py.lower (recipe_name r) = pre ++ Py.lower q ++ post.

(* ================================================================== *)
(** ** Example stores and requests *)

(** One recipe of user 7 in category 1, created with a mixed-case name. *)
Definition db_pasta : Db :=
  snd (Recipes_post empty_db 7 1 "Pasta Bake" (Some "Penne")).

(** User 7 creates "Soup" in category 1. *)
Definition db_soup : Db :=
  snd (Recipes_post empty_db 7 1 "Soup" (Some "Leek")).

(** Then user 7 creates "Stew" in the same category. *)
Definition db_soup_stew : Db :=
  snd (Recipes_post db_soup 7 1 "Stew" (Some "Beef")).

(** The arguments of a request with a search string and no page
    parameters, and of a request with no parameters at all; the parser
    binds a parameter that is not sent to [None]. *)
Definition args_search (q : string) : Args :=
  mkArgs (Given (Some q)) (Given None) (Given None).

Definition args_plain : Args :=
  mkArgs (Given None) (Given None) (Given None).

(** The answer of a successful [put]. *)
Definition edited : Response :=
  (StatusMessage "Success" "Recipe details successfully edited", 200).

(** What [put] stores for an argument: the argument, or the current value
    when the argument is [None] or empty, folded to lower case. *)
Definition stored_value (arg : option string) (current : string) : string :=
  Py.lower (match arg with
            | Some s => if Py.str_truthy s then s else current
            | None => current
            end).

(* ================================================================== *)
(** ** Further invariants and outcomes *)

(** The identifiers in use lie below the next identifier and are pairwise
    distinct. *)
Definition ids_fresh (d : Db) : Prop :=
  Forall (fun r => recipe_id r < next_id d) (table d) /\
  NoDup (map recipe_id (table d)).

(** The stores built from the empty one by create, delete and those
    updates that carry no name (the name argument is [None] or empty). *)
Inductive reachable_without_rename : Db -> Prop :=
| keep_empty :
    reachable_without_rename empty_db
| keep_post d user_id category name description :
    reachable_without_rename d ->
    reachable_without_rename
      (snd (Recipes_post d user_id category name description))
| keep_put d user_id category rid name description :
    Py.truthy name = false ->
    reachable_without_rename d ->
    reachable_without_rename
      (snd (Recipee_put d user_id category rid name description))
| keep_delete d user_id category rid :
    reachable_without_rename d ->
    reachable_without_rename (snd (Recipee_delete d user_id category rid)).

(** Users 7 and 8 both hold recipes in category 1: 7 owns "soup" and
    "stew", 8 owns another "soup". *)
Definition db_shared : Db :=
  snd (Recipes_post db_soup_stew 8 1 "Soup" (Some "Miso")).

(** The answer of a successful [delete]. *)
Definition deleted : Response := (Message "Recipe was deleted", 200).

(** The answer of a successful [post] that assigned [new_id]. *)
Definition created (new_id : Z) : Response :=
  (StatusMessageId "Success" "Recipe has been created" new_id, 201).

(* ================================================================== *)
(** ** Facts about strings *)

Section StringFacts.

Import Py.

Lemma is_alpha_alphabetic (c : ascii) :
  is_alpha c = true <-> alphabetic c.
Proof.
  unfold is_alpha, is_upper, is_lower, alphabetic.
  rewrite orb_true_iff, !andb_true_iff, !Nat.leb_le. tauto.
Qed.

Lemma allowed_char_spec (c : ascii) :
  allowed_char c = true <-> alphabetic c \/ c = " "%char.
Proof.
  unfold allowed_char, is_space.
  rewrite orb_true_iff, is_alpha_alphabetic, Ascii.eqb_eq. tauto.
Qed.

Lemma lower_char_idempotent (c : ascii) :
  lower_char (lower_char c) = lower_char c.
Proof. destruct c as [[] [] [] [] [] [] [] []]; reflexivity. Qed.

Lemma allowed_lower_char (c : ascii) :
  allowed_char (lower_char c) = allowed_char c.
Proof. destruct c as [[] [] [] [] [] [] [] []]; reflexivity. Qed.

Lemma lower_idempotent (s : string) : lower (lower s) = lower s.
Proof.
  induction s as [|c s IH]; simpl; [reflexivity|].
  now rewrite lower_char_idempotent, IH.
Qed.

Lemma name_validator_cons (c : ascii) (s : string) :
  name_validator (String c s) =
  (allowed_char c && (negb (str_truthy s) || name_validator s))%bool.
Proof. destruct s; simpl; [now rewrite andb_true_r | reflexivity]. Qed.

(** Case folding neither creates nor removes a violation of the policy. *)
Lemma name_validator_lower (s : string) :
  name_validator (lower s) = name_validator s.
Proof.
  induction s as [|c s IH]; [reflexivity|].
  change (lower (String c s)) with (String (lower_char c) (lower s)).
  rewrite !name_validator_cons, allowed_lower_char, IH.
  now destruct s.
Qed.

Lemma starts_with_app (p s : string) :
  starts_with p s = true <-> exists rest, s = p ++ rest.
Proof.
  revert s; induction p as [|a p IH]; intros s; simpl.
  - split; [intros _; now exists s | reflexivity].
  - destruct s as [|b s].
    + split; [discriminate | intros [rest H]; discriminate].
    + rewrite andb_true_iff, Ascii.eqb_eq, IH. split.
      * intros [-> [rest ->]]. now exists rest.
      * intros [rest H]. injection H as -> ->.
        split; [reflexivity | now exists rest].
Qed.

(** [contains] is the substring test. *)
Lemma contains_substring (q s : string) :
  contains q s = true <-> exists pre post, s = pre ++ q ++ post.
Proof.
  induction s as [|b s IH].
  - simpl. rewrite orb_false_r, starts_with_app. split.
    + intros [rest H]. now exists "", rest.
    + intros [pre [post H]]. destruct pre; [now exists post | discriminate].
  - cbn [contains]. rewrite orb_true_iff, starts_with_app, IH. split.
    + intros [[rest H] | [pre [post H]]].
      * now exists "", rest.
      * exists (String b pre), post. simpl. now rewrite H.
    + intros [pre [post H]]. destruct pre as [|a pre].
      * left. now exists post.
      * right. simpl in H. injection H as _ H. now exists pre, post.
Qed.

End StringFacts.

(* ================================================================== *)
(** ** Facts about queries and row updates *)

Section RowFacts.

Variable p : Recipe -> bool.

Lemma first_filter_find (l : list Recipe) :
  first (filter p l) = find p l.
Proof.
  induction l as [|r l IH]; simpl; [reflexivity|].
  destruct (p r); [reflexivity | exact IH].
Qed.

(** The row a query's [first()] returns splits the table around the first
    row that satisfies the filter. *)
Lemma first_filter_split (l : list Recipe) (r : Recipe) :
  first (filter p l) = Some r ->
  exists pre post,
    l = (pre ++ r :: post)%list /\ forallb (fun x => negb (p x)) pre = true /\
    p r = true.
Proof.
  induction l as [|x l IH]; simpl; [discriminate|].
  destruct (p x) eqn:Hx.
  - intros [= ->]. now exists [], l.
  - intros H. destruct (IH H) as (pre & post & -> & Hpre & Hr).
    exists (x :: pre), post. simpl. now rewrite Hx, Hpre.
Qed.

Lemma update_first_split (f : Recipe -> Recipe) (pre post : list Recipe)
  (r : Recipe) :
  forallb (fun x => negb (p x)) pre = true -> p r = true ->
  update_first p f (pre ++ r :: post)%list = (pre ++ f r :: post)%list.
Proof.
  intros Hpre Hr. induction pre as [|x pre IH]; simpl.
  - now rewrite Hr.
  - simpl in Hpre. apply andb_true_iff in Hpre as [Hx Hpre].
    apply negb_true_iff in Hx. now rewrite Hx, IH.
Qed.

Lemma Forall_update_first (P : Recipe -> Prop) (f : Recipe -> Recipe)
  (l : list Recipe) :
  (forall r, P r -> P (f r)) -> Forall P l -> Forall P (update_first p f l).
Proof.
  intros Hf. induction 1 as [|r l Hr Hl IH]; simpl; [constructor|].
  destruct (p r); constructor; auto.
Qed.

Lemma remove_first_incl (l : list Recipe) (r : Recipe) :
  In r (remove_first p l) -> In r l.
Proof.
  induction l as [|x l IH]; simpl; [tauto|].
  destruct (p x); simpl; [tauto | intros [->|H]; auto].
Qed.

Lemma Forall_remove_first (P : Recipe -> Prop) (l : list Recipe) :
  Forall P l -> Forall P (remove_first p l).
Proof.
  rewrite !Forall_forall. intros H r Hr. apply H.
  now apply remove_first_incl.
Qed.

End RowFacts.

(** What a create leaves behind: the database it was given, or that
    database with one row appended, and then the name was valid, the
    description a string and no row of the caller's category had the
    lower-cased name. *)
Lemma Recipes_post_db (d : Db) (user_id category : Z) (name : string)
  (description : option string) :
  snd (Recipes_post d user_id category name description) = d \/
  exists s,
    description = Some s /\ name_validator name = true /\
    find (named user_id category (Py.lower name)) (table d) = None /\
    snd (Recipes_post d user_id category name description) =
    {| table := (table d ++
                 [mkRecipe (next_id d) (Py.lower name) (Py.lower s)
                    category user_id])%list;
       next_id := next_id d + 1 |}.
Proof.
  unfold Recipes_post, filter_by.
  destruct (name_validator name); [|now left].
  destruct description as [s|]; [|now left].
  rewrite first_filter_find.
  destruct (find _ (table d)) eqn:Hf; [now left|].
  right. now exists s.
Qed.

(** Every row of a reachable store passes the policy and is in lower
    case. *)
Lemma reachable_stored_ok (d : Db) :
  reachable d -> Forall stored_ok (table d).
Proof.
  induction 1 as [ | d u c name desc _ IH | d u c rid name desc _ IH
                   | d u c rid _ IH ].
  - constructor.
  - destruct (Recipes_post_db d u c name desc)
      as [-> | (s & _ & Hv & _ & ->)]; [exact IH|]. simpl.
    apply Forall_app. split; [exact IH|]. constructor; [|constructor].
    unfold stored_ok; simpl.
    now rewrite name_validator_lower, !lower_idempotent.
  - unfold Recipee_put. destruct (first _) as [the_recipe|]; [|exact IH].
    destruct (name_validator _) eqn:Hv; [|exact IH]. simpl.
    apply Forall_update_first; [|exact IH].
    intros r _. unfold stored_ok; simpl.
    now rewrite Hv, !lower_idempotent.
  - unfold Recipee_delete. destruct (first _); [|exact IH]. simpl.
    now apply Forall_remove_first.
Qed.

(* ================================================================== *)
(** ** The validator *)

Lemma name_validator_all_allowed (s : string) :
  name_validator s = true <->
  s <> "" /\ Forall (fun c => allowed_char c = true) (list_ascii_of_string s).
Proof.
  induction s as [|c s IH].
  - simpl. split; [discriminate | intros [H _]; now elim H].
  - rewrite name_validator_cons, andb_true_iff, orb_true_iff.
    cbn [list_ascii_of_string]. rewrite Forall_cons_iff, IH. split.
    + intros [Hc Hs]. split; [discriminate|]. split; [exact Hc|].
      destruct Hs as [Hs | [_ Hs]]; [|exact Hs].
      destruct s; [constructor | discriminate].
    + intros [_ [Hc Hs]]. split; [exact Hc|].
      destruct s; [now left | right; split; [discriminate | exact Hs]].
Qed.

(** C6. The validator accepts a string exactly when the string has at
    least one character and consists solely of letters and spaces: every
    such string is accepted, and the empty string and every string with a
    digit, a punctuation mark or any other character that is neither a
    letter nor a space is rejected.  Being a function of its argument
    alone, it is pure and deterministic. *)
Theorem name_validator_letters_and_spaces (s : string) :
  name_validator s = true <->
  (1 <= String.length s)%nat /\ letters_and_spaces s.
Proof.
  rewrite name_validator_all_allowed. unfold letters_and_spaces.
  assert (Hlen : s <> "" <-> (1 <= String.length s)%nat).
  { destruct s; simpl; split; intros H; try lia; congruence. }
  rewrite Hlen. apply and_iff_compat_l.
  rewrite !Forall_forall. split; intros H c Hc; apply allowed_char_spec; auto.
Qed.

Example name_validator_multi_word : name_validator "chicken soup" = true.
Proof. reflexivity. Qed.

Example name_validator_mixed_case : name_validator "Pasta Bake" = true.
Proof. reflexivity. Qed.

Example name_validator_digits : name_validator "Pasta123" = false.
Proof. reflexivity. Qed.

Example name_validator_punctuation : name_validator "fish & chips" = false.
Proof. reflexivity. Qed.

Example name_validator_empty : name_validator "" = false.
Proof. reflexivity. Qed.

(* ================================================================== *)
(** ** Create *)

(** C8. A create request whose name fails the naming policy is answered
    with the invalid-name message, which quotes the name, and status 400;
    the database is returned as it was, so no record is persisted.  This
    holds whatever the description is, [None] included. *)
Theorem Recipes_post_invalid_name (d : Db) (user_id category : Z)
  (name : string) (description : option string) :
  name_validator name = false ->
  Recipes_post d user_id category name description =
  (Return
     (Message (name ++ " is not a valid name. Recipe names can only comprise"
               ++ " of alphabetical characters and can be more than one word"),
      400), d).
Proof. intros Hv. unfold Recipes_post. now rewrite Hv. Qed.

Lemma Recipes_post_invalid_name_witness :
  name_validator "Pasta123" = false /\
  Recipes_post empty_db 7 1 "Pasta123" (Some "Flour") =
  (Return
     (Message ("Pasta123 is not a valid name. Recipe names can only comprise"
               ++ " of alphabetical characters and can be more than one word"),
      400), empty_db).
Proof.
  split; [reflexivity|].
  apply (Recipes_post_invalid_name empty_db 7 1 "Pasta123" (Some "Flour")).
  reflexivity.
Defined.

(** C5. On a store produced by the handlers, take a create request whose
    name equals, up to case, the name of a recipe the caller already has
    in the category.  When its description is a string, it is answered
    with the message "Recipe already exists" and the default status 200.
    When its description is [None], line 108 raises [AttributeError]
    before the pre-check of lines 110 to 113 is reached, and no answer is
    given.  Either way the database, with its table and its next
    identifier, is left as it was. *)
Theorem Recipes_post_duplicate (d : Db) (user_id category : Z)
  (name : string) (description : option string) :
  reachable d ->
  (exists r, In r (table d) /\ created_by r = user_id /\
             category_id r = category /\
             Py.lower (recipe_name r) = Py.lower name) ->
  Recipes_post d user_id category name description =
  match description with
  | Some _ => (Return (Message "Recipe already exists", 200), d)
  | None => (Raise AttributeError, d)
  end.
Proof.
  intros Hd (r & Hin & Hu & Hc & Hn).
  pose proof (reachable_stored_ok d Hd) as Hok.
  rewrite Forall_forall in Hok. destruct (Hok r Hin) as (Hv & Hl & _).
  rewrite Hl in Hn. unfold Recipes_post.
  rewrite <- name_validator_lower, <- Hn, Hv.
  destruct description as [s|]; [|reflexivity].
  unfold filter_by. rewrite first_filter_find.
  destruct (find _ (table d)) eqn:Hf; [reflexivity|].
  apply find_none with (x := r) in Hf; [|exact Hin].
  unfold named in Hf. rewrite Hu, Hc, !Z.eqb_refl, String.eqb_refl in Hf.
  discriminate.
Qed.

(** "Pasta Bake" exists; "pasta bake" is sent again, once with a
    description and once with a null description. *)
Lemma Recipes_post_duplicate_witness :
  table db_pasta = [mkRecipe 1 "pasta bake" "penne" 1 7] /\
  Recipes_post db_pasta 7 1 "pasta bake" (Some "Rigatoni") =
  (Return (Message "Recipe already exists", 200), db_pasta) /\
  Recipes_post db_pasta 7 1 "pasta bake" None =
  (Raise AttributeError, db_pasta).
Proof.
  assert (Hd : reachable db_pasta)
    by exact (reach_post empty_db 7 1 "Pasta Bake" (Some "Penne") reach_empty).
  assert (Hdup : exists r, In r (table db_pasta) /\ created_by r = 7 /\
                           category_id r = 1 /\
                           Py.lower (recipe_name r) = Py.lower "pasta bake").
  { exists (mkRecipe 1 "pasta bake" "penne" 1 7).
    repeat split. simpl. now left. }
  split; [reflexivity|]. split.
  - exact (Recipes_post_duplicate db_pasta 7 1 "pasta bake"
             (Some "Rigatoni") Hd Hdup).
  - exact (Recipes_post_duplicate db_pasta 7 1 "pasta bake" None Hd Hdup).
Defined.

(* ================================================================== *)
(** ** Update *)

(** C7. A successful update rewrites exactly one row, the first one with
    the caller, category and identifier of the request, and leaves every
    other row and the next identifier alone.  In that row the identifier,
    the category and the owner are kept; the name becomes the lower-cased
    request name, or the lower-cased current name when the request has
    none; the column [ingredients] becomes the lower-cased request
    description, or the lower-cased current [ingredients] when the request
    has none.  On a store produced by the handlers an omitted name leaves
    the name as it was, and an omitted description leaves [ingredients]
    as it was. *)
Theorem Recipee_put_frame (d d' : Db) (user_id category rid : Z)
  (name description : option string) :
  Recipee_put d user_id category rid name description = (edited, d') ->
  exists pre the_recipe post,
    table d = (pre ++ the_recipe :: post)%list /\
    forallb (fun x => negb (with_id user_id category rid x)) pre = true /\
    with_id user_id category rid the_recipe = true /\
    d' = {| table :=
              (pre ++
               mkRecipe (recipe_id the_recipe)
                 (stored_value name (recipe_name the_recipe))
                 (stored_value description (ingredients the_recipe))
                 (category_id the_recipe) (created_by the_recipe)
               :: post)%list;
            next_id := next_id d |} /\
    (reachable d -> Py.truthy name = false ->
     stored_value name (recipe_name the_recipe) = recipe_name the_recipe) /\
    (reachable d -> Py.truthy description = false ->
     stored_value description (ingredients the_recipe) =
     ingredients the_recipe).
Proof.
  unfold Recipee_put, filter_by.
  destruct (first _) as [the_recipe|] eqn:Hfirst; [|discriminate].
  destruct (name_validator _) eqn:Hv; [|discriminate].
  intros [= <-].
  destruct (first_filter_split _ _ _ Hfirst) as (pre & post & Ht & Hpre & Hr).
  exists pre, the_recipe, post.
  assert (Hname : forall (arg : option string) (cur : string),
             Py.lower (if negb (Py.truthy arg) then cur
                       else match arg with Some s => s | None => "" end) =
             stored_value arg cur).
  { intros [[|a s]|] cur; reflexivity. }
  repeat split; auto.
  - rewrite Ht, update_first_split by assumption.
    now rewrite !Hname.
  - intros Hd Hn.
    pose proof (reachable_stored_ok d Hd) as Hok.
    rewrite Ht in Hok. apply Forall_elt in Hok. destruct Hok as (_ & Hl & _).
    destruct name as [[|a s]|]; try discriminate; exact Hl.
  - intros Hd Hn.
    pose proof (reachable_stored_ok d Hd) as Hok.
    rewrite Ht in Hok. apply Forall_elt in Hok. destruct Hok as (_ & _ & Hl).
    destruct description as [[|a s]|]; try discriminate; exact Hl.
Qed.

Lemma Recipee_put_frame_witness :
  Recipee_put db_soup_stew 7 1 2 None (Some "Beef And ALE") =
  (edited,
   {| table := [mkRecipe 1 "soup" "leek" 1 7;
                mkRecipe 2 "stew" "beef and ale" 1 7];
      next_id := 3 |}) /\
  exists pre the_recipe post,
    table db_soup_stew = (pre ++ the_recipe :: post)%list /\
    forallb (fun x => negb (with_id 7 1 2 x)) pre = true /\
    with_id 7 1 2 the_recipe = true /\
    snd (Recipee_put db_soup_stew 7 1 2 None (Some "Beef And ALE")) =
    {| table :=
         (pre ++
          mkRecipe (recipe_id the_recipe)
            (stored_value None (recipe_name the_recipe))
            (stored_value (Some "Beef And ALE") (ingredients the_recipe))
            (category_id the_recipe) (created_by the_recipe)
          :: post)%list;
       next_id := next_id db_soup_stew |} /\
    (reachable db_soup_stew -> Py.truthy None = false ->
     stored_value None (recipe_name the_recipe) = recipe_name the_recipe) /\
    (reachable db_soup_stew -> Py.truthy (Some "Beef And ALE") = false ->
     stored_value (Some "Beef And ALE") (ingredients the_recipe) =
     ingredients the_recipe).
Proof.
  split; [reflexivity|].
  apply (Recipee_put_frame db_soup_stew
           (snd (Recipee_put db_soup_stew 7 1 2 None (Some "Beef And ALE")))
           7 1 2 None (Some "Beef And ALE")).
  reflexivity.
Defined.

(** An empty string and [None] are the same argument to [put]. *)
Lemma stored_value_empty (current : string) :
  stored_value (Some "") current = stored_value None current.
Proof. reflexivity. Qed.

(** C10. In an update, an empty-string name or description is handled
    exactly like an omitted one: the handler's answer and the database it
    leaves are the same.  On a store produced by the handlers, an update of
    an existing recipe with an empty name therefore validates the current
    name, succeeds, and keeps that name; it is never answered with the
    invalid-name message. *)
Theorem Recipee_put_empty_string (d : Db) (user_id category rid : Z)
  (name description : option string) :
  Recipee_put d user_id category rid (Some "") description =
  Recipee_put d user_id category rid None description /\
  Recipee_put d user_id category rid name (Some "") =
  Recipee_put d user_id category rid name None /\
  (reachable d ->
   forall the_recipe,
     first (filter_by (with_id user_id category rid) d) = Some the_recipe ->
     fst (Recipee_put d user_id category rid (Some "") description) = edited /\
     first (filter_by (with_id user_id category rid)
              (snd (Recipee_put d user_id category rid (Some "") description)))
     = Some (mkRecipe (recipe_id the_recipe) (recipe_name the_recipe)
               (stored_value description (ingredients the_recipe))
               (category_id the_recipe) (created_by the_recipe))).
Proof.
  split; [reflexivity|]. split; [reflexivity|].
  intros Hd the_recipe Hfirst.
  unfold Recipee_put. rewrite Hfirst. unfold filter_by in *.
  destruct (first_filter_split _ _ _ Hfirst) as (pre & post & Ht & Hpre & Hr).
  pose proof (reachable_stored_ok d Hd) as Hok.
  rewrite Ht in Hok. apply Forall_elt in Hok. destruct Hok as (Hv & Hl & _).
  cbn [Py.truthy Py.str_truthy negb]. rewrite Hl, Hv.
  split; [reflexivity|]. cbn [snd table].
  rewrite Ht, update_first_split by assumption.
  rewrite first_filter_find.
  assert (Hfind : forall (x : Recipe) (l : list Recipe),
             with_id user_id category rid x = true ->
             find (with_id user_id category rid) (pre ++ x :: l) = Some x).
  { intros x l Hx. clear Ht. induction pre as [|y pre IH]; simpl.
    - now rewrite Hx.
    - simpl in Hpre. apply andb_true_iff in Hpre as [Hy Hpre].
      apply negb_true_iff in Hy. rewrite Hy. now apply IH. }
  rewrite Hfind by exact Hr. f_equal. f_equal.
  destruct description as [[|a s]|]; reflexivity.
Qed.

Lemma Recipee_put_empty_string_witness :
  Recipee_put db_soup_stew 7 1 2 (Some "") (Some "Lamb") =
  Recipee_put db_soup_stew 7 1 2 None (Some "Lamb") /\
  Recipee_put db_soup_stew 7 1 2 (Some "Dal") (Some "") =
  Recipee_put db_soup_stew 7 1 2 (Some "Dal") None /\
  fst (Recipee_put db_soup_stew 7 1 2 (Some "") (Some "Lamb")) = edited /\
  first (filter_by (with_id 7 1 2)
           (snd (Recipee_put db_soup_stew 7 1 2 (Some "") (Some "Lamb"))))
  = Some (mkRecipe 2 "stew" "lamb" 1 7).
Proof.
  destruct (Recipee_put_empty_string db_soup_stew 7 1 2
              (Some "Dal") (Some "Lamb")) as (Hname & Hdesc & Hok).
  split; [exact Hname|]. split; [exact Hdesc|].
  apply (Hok (reach_post _ 7 1 "Stew" (Some "Beef")
                (reach_post _ 7 1 "Soup" (Some "Leek") reach_empty))
             (mkRecipe 2 "stew" "beef" 1 7)).
  reflexivity.
Defined.

(* ================================================================== *)
(** ** Uniqueness of names within an owner and category *)

Lemma scope_key_named (user_id category : Z) (name : string) (r : Recipe) :
  stored_ok r ->
  scope_key r = (user_id, category, Py.lower name) ->
  named user_id category (Py.lower name) r = true.
Proof.
  intros (_ & Hl & _). unfold scope_key, named. rewrite Hl.
  intros [= -> -> ->]. now rewrite !Z.eqb_refl, String.eqb_refl.
Qed.

(** Create keeps the names unique: the pre-check of lines 110 to 113
    compares the lower-cased name with stored names, which are in lower
    case. *)
Lemma Recipes_post_unique_names (d : Db) (user_id category : Z)
  (name : string) (description : option string) :
  Forall stored_ok (table d) ->
  unique_names (table d) ->
  unique_names (table (snd (Recipes_post d user_id category name description))).
Proof.
  intros Hok Hu.
  destruct (Recipes_post_db d user_id category name description)
    as [-> | (s & _ & _ & Hf & ->)]; [exact Hu|]. simpl.
  unfold unique_names. rewrite map_app. simpl.
  apply NoDup_app; [exact Hu | repeat constructor; intros [] |].
  intros k Hk [<-|[]]. apply in_map_iff in Hk as (r & Hkey & Hin).
  apply find_none with (x := r) in Hf; [|exact Hin].
  rewrite Forall_forall in Hok.
  unfold scope_key at 2 in Hkey. simpl in Hkey.
  rewrite lower_idempotent in Hkey.
  rewrite (scope_key_named _ _ _ _ (Hok r Hin) Hkey) in Hf. discriminate.
Qed.

(** Delete keeps the names unique. *)
Lemma Recipee_delete_unique_names (d : Db) (user_id category rid : Z) :
  unique_names (table d) ->
  unique_names (table (snd (Recipee_delete d user_id category rid))).
Proof.
  unfold Recipee_delete. destruct (first _) as [_|]; [|tauto]. simpl.
  unfold unique_names. generalize (table d). intros l.
  induction l as [|x l IH]; simpl; [tauto|].
  intros Hnd. inversion Hnd as [|k ks Hnotin Hrest]; subst.
  destruct (with_id user_id category rid x); [exact Hrest|].
  simpl. constructor; [|now apply IH].
  intros Hin. apply Hnotin. apply in_map_iff in Hin as (r & Hk & Hr).
  apply in_map_iff. exists r. split; [exact Hk|].
  now apply remove_first_incl in Hr.
Qed.

(** C1. Update does not keep the names unique.  After "Soup" and "Stew"
    have been created by one user in one category the names are unique;
    renaming the second recipe to "Soup" succeeds and leaves two recipes
    of that user and category with the name "soup". *)
Theorem Recipee_put_breaks_unique_names :
  reachable db_soup_stew /\
  unique_names (table db_soup_stew) /\
  Recipee_put db_soup_stew 7 1 2 (Some "Soup") None =
  (edited,
   {| table := [mkRecipe 1 "soup" "leek" 1 7; mkRecipe 2 "soup" "beef" 1 7];
      next_id := 3 |}) /\
  ~ unique_names
      (table (snd (Recipee_put db_soup_stew 7 1 2 (Some "Soup") None))).
Proof.
  split.
  { exact (reach_post _ 7 1 "Stew" (Some "Beef")
             (reach_post _ 7 1 "Soup" (Some "Leek") reach_empty)). }
  split.
  { unfold unique_names. simpl.
    constructor; [intros [H|[]]; discriminate|].
    constructor; [intros []|constructor]. }
  split; [reflexivity|].
  unfold unique_names. simpl. intros Hnd.
  inversion Hnd as [|k ks Hnotin _]; subst. apply Hnotin. now left.
Qed.

(* ================================================================== *)
(** ** The resolver *)

Section Resolver.

Variable jsonify : Payload -> Outcome.
Variable paginate : BaseQuery -> option Z -> Z -> Result (list Recipe).
Variables per_page_min per_page_max : Z.

(** Past the truth test, and without a search hit, the resolver asks for
    the page and passes the dump of its records to [jsonify]. *)
Lemma manage_get_paginates (query : BaseQuery) (args : Args) :
  Py.truthy (get (arg_q args) "") = false ->
  manage_get jsonify paginate per_page_min per_page_max (Some query) args =
  match paginate query (get (arg_page args) 1)
          (effective_per_page per_page_min per_page_max args) with
  | Return paginated => jsonify (DumpResult paginated)
  | Raise e => Raise e
  end.
Proof. intros Hq. unfold manage_get. cbn [query_truthy]. now rewrite Hq. Qed.

(** C3. A query that selects no rows is still a query object, and a
    query object is true: the resolver does not give the message for it
    but goes on to ask for the page and to call [jsonify] on the dump of
    what it gets.  With [jsonify] as the file binds it this raises; with
    [flask.jsonify] it would be a JSON response; in neither case is it the
    message.  Only a missing collection, [None], is answered with "There
    are no recipes". *)
Theorem manage_get_empty_query (args : Args) :
  manage_get jsonify paginate per_page_min per_page_max (Some []) args =
  match paginate [] (get (arg_page args) 1)
          (effective_per_page per_page_min per_page_max args) with
  | Return paginated => jsonify (DumpResult paginated)
  | Raise e => Raise e
  end /\
  (exists e,
     manage_get jsonify_module paginate per_page_min per_page_max (Some [])
       args = Raise e) /\
  manage_get jsonify_flask paginate per_page_min per_page_max (Some []) args
  <> Return (Message "There are no recipes", 200) /\
  manage_get jsonify paginate per_page_min per_page_max None args =
  Return (Message "There are no recipes", 200).
Proof.
  assert (Hnil : forall q, match q with
                           | Some q' => search q' []
                           | None => None
                           end = None) by (now intros [q'|]).
  assert (Hshape : forall js,
             manage_get js paginate per_page_min per_page_max (Some []) args =
             match paginate [] (get (arg_page args) 1)
                     (effective_per_page per_page_min per_page_max args) with
             | Return paginated => js (DumpResult paginated)
             | Raise e => Raise e
             end).
  { intros js. unfold manage_get. cbn [query_truthy]. rewrite Hnil.
    now destruct (Py.truthy _). }
  split; [apply Hshape|]. split; [|split; [|reflexivity]].
  - rewrite Hshape. destruct (paginate _ _ _) as [paginated|e].
    + now exists TypeError.
    + now exists e.
  - rewrite Hshape. destruct (paginate _ _ _); discriminate.
Qed.

Lemma search_matches (q : string) (r : Recipe) :
  Py.contains (Py.lower q) (Py.lower (recipe_name r)) = true <-> matches q r.
Proof. apply contains_substring. Qed.

(** The search loop returns the first matching record of the collection,
    or nothing when no record matches. *)
Lemma search_first_match (q : string) (query : BaseQuery) :
  match search q query with
  | Some r =>
      exists pre post,
        query = (pre ++ r :: post)%list /\
        Forall (fun x => ~ matches q x) pre /\ matches q r
  | None => Forall (fun x => ~ matches q x) query
  end.
Proof.
  unfold search, all. induction query as [|x l IH]; simpl; [constructor|].
  destruct (Py.contains _ _) eqn:Hx.
  - exists [], l. repeat split; [constructor | now apply search_matches].
  - assert (Hnx : ~ matches q x).
    { intros H. apply search_matches in H. congruence. }
    destruct (find _ l) as [r|].
    + destruct IH as (pre & post & -> & Hpre & Hr).
      exists (x :: pre), post. repeat split; [now constructor | exact Hr].
    + now constructor.
Qed.

(** C2. For every collection and every non-empty search string [q]: when
    some record's name contains [q] up to case, the resolver takes the
    first such record in the order of the collection and passes the dump
    of that one record, not of a list, to the [jsonify] call of line 38;
    the page is not asked for, so the outcome does not depend on
    [paginate].  When no record's name contains [q], the resolver falls
    through to pagination and passes the dump of the page, a list, to the
    [jsonify] call of line 46.  What [jsonify] makes of its argument is
    left open. *)
Theorem manage_get_search (query : BaseQuery) (args : Args) (q : string) :
  get (arg_q args) "" = Some q -> q <> "" ->
  ((exists r, In r query /\ matches q r) ->
   exists pre r post,
     query = (pre ++ r :: post)%list /\
     Forall (fun x => ~ matches q x) pre /\ matches q r /\
     manage_get jsonify paginate per_page_min per_page_max (Some query) args
     = jsonify (DumpData r)) /\
  ((forall r, In r query -> ~ matches q r) ->
   manage_get jsonify paginate per_page_min per_page_max (Some query) args =
   match paginate query (get (arg_page args) 1)
           (effective_per_page per_page_min per_page_max args) with
   | Return paginated => jsonify (DumpResult paginated)
   | Raise e => Raise e
   end).
Proof.
  intros Hq Hne. unfold manage_get. cbn [query_truthy]. rewrite Hq.
  assert (Ht : Py.truthy (Some q) = true)
    by (destruct q; [now elim Hne | reflexivity]).
  rewrite Ht. pose proof (search_first_match q query) as Hs.
  destruct (search q query) as [r|]; split.
  - intros _. destruct Hs as (pre & post & Hsplit & Hpre & Hr).
    now exists pre, r, post.
  - intros Hnone. destruct Hs as (pre & post & -> & _ & Hr).
    elim (Hnone r); [apply in_elt | exact Hr].
  - intros (r & Hin & Hr). rewrite Forall_forall in Hs. now elim (Hs r Hin).
  - reflexivity.
Qed.


End Resolver.

Lemma manage_get_search_witness :
  manage_get jsonify_flask (fun query _ _ => Return query) 5 20
    (Some (table db_soup_stew)) (args_search "S") =
  Return (Jsonified (DumpData (mkRecipe 1 "soup" "leek" 1 7)), 200) /\
  exists pre r post,
    table db_soup_stew = (pre ++ r :: post)%list /\
    Forall (fun x => ~ matches "S" x) pre /\ matches "S" r /\
    manage_get jsonify_flask (fun query _ _ => Return query) 5 20
      (Some (table db_soup_stew)) (args_search "S") =
    jsonify_flask (DumpData r).
Proof.
  split; [reflexivity|].
  apply (manage_get_search jsonify_flask (fun query _ _ => Return query) 5 20
           (table db_soup_stew) (args_search "S") "S").
  - reflexivity.
  - discriminate.
  - exists (mkRecipe 2 "stew" "beef" 1 7). split.
    + simpl. right. now left.
    + now exists "", "tew".
Defined.

(** Against C2 as stated: a non-empty collection and a non-empty search
    string that occurs in no name.  Whatever [jsonify], [paginate] and the
    bounds are, the resolver asks for the page and passes its dump, a
    list, to the [jsonify] call of line 46: pagination is not skipped, and
    no single record is selected.  With [flask.jsonify] and a storage that
    has both records on the page, the answer renders the list of both. *)
Lemma manage_get_search_without_match :
  table db_soup_stew <> [] /\ "xyz" <> "" /\
  (forall jsonify paginate per_page_min per_page_max,
     manage_get jsonify paginate per_page_min per_page_max
       (Some (table db_soup_stew)) (args_search "xyz") =
     match paginate (table db_soup_stew) None
             (effective_per_page per_page_min per_page_max
                (args_search "xyz")) with
     | Return paginated => jsonify (DumpResult paginated)
     | Raise e => Raise e
     end) /\
  (forall per_page_min per_page_max r,
     manage_get jsonify_flask (fun query _ _ => Return query)
       per_page_min per_page_max (Some (table db_soup_stew))
       (args_search "xyz") =
     Return (Jsonified (DumpResult [mkRecipe 1 "soup" "leek" 1 7;
                                    mkRecipe 2 "stew" "beef" 1 7]), 200) /\
     manage_get jsonify_flask (fun query _ _ => Return query)
       per_page_min per_page_max (Some (table db_soup_stew))
       (args_search "xyz") <>
     Return (Jsonified (DumpData r), 200)).
Proof.
  split; [discriminate|]. split; [discriminate|].
  split; [reflexivity|]. intros lo hi r.
  split; [reflexivity | discriminate].
Qed.


(* ================================================================== *)
(** ** Listing a category *)

(** C9. When the caller has no recipe in the category, listing the
    category is answered with the message "No recipes in category" and the
    category number, with status 404, whatever the resolver would do: the
    resolver is not called.  Message and status both differ from the
    "There are no recipes" answer that [manage_get] gives for a missing
    collection. *)
Theorem Recipes_get_empty_category
  (manage_get_recipes : option BaseQuery -> Args -> Response)
  (d : Db) (user_id category : Z) (args : Args) :
  filter_by (in_category user_id category) d = [] ->
  Recipes_get manage_get_recipes d user_id category args =
  (Message ("No recipes in category " ++ Py.str category), 404) /\
  forall jsonify paginate per_page_min per_page_max,
  exists no_recipes,
    manage_get jsonify paginate per_page_min per_page_max None args =
    Return no_recipes /\
    no_recipes = (Message "There are no recipes", 200) /\
    fst (Recipes_get manage_get_recipes d user_id category args) <>
    fst no_recipes /\
    snd (Recipes_get manage_get_recipes d user_id category args) <>
    snd no_recipes.
Proof.
  intros Hempty. unfold Recipes_get, all. rewrite Hempty.
  split; [reflexivity|]. intros js pg lo hi.
  exists (Message "There are no recipes", 200).
  repeat split; discriminate.
Qed.

(** User 7 owns "soup" in category 1; user 8 lists category 1. *)
Lemma Recipes_get_empty_category_witness :
  table db_soup = [mkRecipe 1 "soup" "leek" 1 7] /\
  Recipes_get (fun _ _ => (Jsonified (DumpResult []), 200)) db_soup 8 1
    args_plain =
  (Message "No recipes in category 1", 404).
Proof.
  split; [reflexivity|].
  apply (Recipes_get_empty_category
           (fun _ _ => (Jsonified (DumpResult []), 200)) db_soup 8 1
           args_plain).
  reflexivity.
Defined.

(** With at least one recipe in the category the request is handed to
    the resolver. *)
Lemma Recipes_get_delegates
  (manage_get_recipes : option BaseQuery -> Args -> Response)
  (d : Db) (user_id category : Z) (args : Args) :
  filter_by (in_category user_id category) d <> [] ->
  Recipes_get manage_get_recipes d user_id category args =
  manage_get_recipes (Some (filter_by (in_category user_id category) d)) args.
Proof.
  unfold Recipes_get, all.
  destruct (filter_by _ d); [intros H; now elim H | reflexivity].
Qed.

(* ================================================================== *)
(** ** Identifiers *)

Section MoreRowFacts.

Variable p : Recipe -> bool.

Lemma remove_first_split (pre post : list Recipe) (r : Recipe) :
  forallb (fun x => negb (p x)) pre = true -> p r = true ->
  remove_first p (pre ++ r :: post)%list = (pre ++ post)%list.
Proof.
  intros Hpre Hr. induction pre as [|x pre IH]; simpl.
  - now rewrite Hr.
  - simpl in Hpre. apply andb_true_iff in Hpre as [Hx Hpre].
    apply negb_true_iff in Hx. now rewrite Hx, IH.
Qed.

Lemma map_update_first {K : Type} (k : Recipe -> K) (f : Recipe -> Recipe)
  (l : list Recipe) :
  (forall r, p r = true -> k (f r) = k r) ->
  map k (update_first p f l) = map k l.
Proof.
  intros Hk. induction l as [|x l IH]; simpl; [reflexivity|].
  destruct (p x) eqn:Hx; simpl; [now rewrite Hk | now rewrite IH].
Qed.

Lemma NoDup_map_remove_first {K : Type} (k : Recipe -> K) (l : list Recipe) :
  NoDup (map k l) -> NoDup (map k (remove_first p l)).
Proof.
  induction l as [|x l IH]; simpl; [tauto|].
  intros Hnd. inversion Hnd as [|y ys Hnotin Hrest]; subst.
  destruct (p x); [exact Hrest|].
  simpl. constructor; [|now apply IH].
  intros Hin. apply Hnotin. apply in_map_iff in Hin as (r & Hk & Hr).
  apply in_map_iff. exists r. split; [exact Hk|].
  now apply remove_first_incl in Hr.
Qed.

Lemma find_none_iff (l : list Recipe) :
  find p l = None <-> forall r, In r l -> p r = false.
Proof.
  split; [intros H r Hr; now apply find_none with (l := l)|].
  intros H. destruct (find p l) as [r|] eqn:Hf; [|reflexivity].
  apply find_some in Hf as [Hin Hp]. rewrite (H r Hin) in Hp. discriminate.
Qed.

End MoreRowFacts.

Lemma NoDup_map_eq {K : Type} (k : Recipe -> K) (l : list Recipe)
  (x y : Recipe) :
  NoDup (map k l) -> In x l -> In y l -> k x = k y -> x = y.
Proof.
  induction l as [|z l IH]; simpl; [tauto|].
  intros Hnd. inversion Hnd as [|w ws Hnotin Hrest]; subst.
  intros [->|Hx] [->|Hy] Hk; auto.
  - elim Hnotin. rewrite Hk. now apply in_map.
  - elim Hnotin. rewrite <- Hk. now apply in_map.
Qed.

(** Identifiers are never reused and never shared, whatever the handlers
    are asked to do. *)
Lemma reachable_ids_fresh (d : Db) : reachable d -> ids_fresh d.
Proof.
  unfold ids_fresh.
  induction 1 as [ | d u c name desc _ [IHlt IHnd]
                   | d u c rid name desc _ [IHlt IHnd]
                   | d u c rid _ [IHlt IHnd] ].
  - split; constructor.
  - destruct (Recipes_post_db d u c name desc)
      as [-> | (s & _ & _ & _ & ->)]; [now split|]. simpl. split.
    + apply Forall_app. split.
      * eapply Forall_impl; [|exact IHlt]. simpl. intros; lia.
      * constructor; [simpl; lia | constructor].
    + rewrite map_app. simpl.
      apply NoDup_app; [exact IHnd | repeat constructor; intros [] |].
      intros k Hk [<-|[]]. apply in_map_iff in Hk as (r & Hid & Hin).
      rewrite Forall_forall in IHlt. specialize (IHlt r Hin). lia.
  - unfold Recipee_put. destruct (first _) as [the_recipe|]; [|now split].
    destruct (name_validator _); [|now split]. simpl. split.
    + apply Forall_update_first; [|exact IHlt]. now intros x Hx.
    + now rewrite map_update_first.
  - unfold Recipee_delete. destruct (first _); [|now split]. simpl. split.
    + now apply Forall_remove_first.
    + now apply NoDup_map_remove_first.
Qed.

(** With distinct identifiers, a row of the caller is the one its
    identifier finds. *)
Lemma find_with_id (l : list Recipe) (r : Recipe) :
  NoDup (map recipe_id l) -> In r l ->
  find (with_id (created_by r) (category_id r) (recipe_id r)) l = Some r.
Proof.
  intros Hnd Hin.
  destruct (find _ l) as [x|] eqn:Hf.
  - apply find_some in Hf as [Hx Hw]. f_equal.
    apply (NoDup_map_eq recipe_id l); auto.
    unfold with_id in Hw. apply andb_true_iff in Hw as [_ Hw].
    now apply Z.eqb_eq in Hw.
  - apply find_none with (x := r) in Hf; [|exact Hin].
    unfold with_id in Hf. now rewrite !Z.eqb_refl in Hf.
Qed.

(* ================================================================== *)
(** ** Create: the success path and the round trip *)

(** X1. Take a create request with a valid name, the caller having no
    recipe in the category whose name equals the new one up to case,
    whatever other callers or categories hold.  With a string description
    it succeeds: the answer is status 201 with the next identifier, and
    exactly one row is appended, carrying that identifier, the lower-cased
    name and description, the category of the route and the caller as
    owner.  With the description [None] it raises [AttributeError] at line
    108 and stores nothing. *)
Theorem Recipes_post_creates (d : Db) (user_id category : Z) (name : string) :
  name_validator name = true ->
  (forall r, In r (table d) -> created_by r = user_id ->
             category_id r = category ->
             Py.lower (recipe_name r) <> Py.lower name) ->
  (forall description : string,
     Recipes_post d user_id category name (Some description) =
     (Return (created (next_id d)),
      {| table := (table d ++
                   [mkRecipe (next_id d) (Py.lower name)
                      (Py.lower description) category user_id])%list;
         next_id := next_id d + 1 |})) /\
  Recipes_post d user_id category name None = (Raise AttributeError, d).
Proof.
  intros Hv Hfree. unfold Recipes_post, filter_by. rewrite Hv.
  split; [|reflexivity]. intros description.
  rewrite first_filter_find.
  destruct (find _ (table d)) as [x|] eqn:Hf; [|reflexivity].
  apply find_some in Hf as [Hin Hx]. unfold named in Hx.
  apply andb_true_iff in Hx as [Hx Hn]. apply andb_true_iff in Hx as [Hu Hc].
  apply Z.eqb_eq in Hu, Hc. apply String.eqb_eq in Hn.
  elim (Hfree x Hin Hu Hc). now rewrite Hn, lower_idempotent.
Qed.

(** User 7 owns "soup" in category 1; user 8 creates "SOUP" there. *)
Lemma Recipes_post_creates_witness :
  Recipes_post db_soup 8 1 "SOUP" (Some "Miso") =
  (Return (created 2),
   {| table := [mkRecipe 1 "soup" "leek" 1 7; mkRecipe 2 "soup" "miso" 1 8];
      next_id := 3 |}) /\
  Recipes_post db_soup 8 1 "SOUP" None = (Raise AttributeError, db_soup).
Proof.
  destruct (Recipes_post_creates db_soup 8 1 "SOUP") as [Hsome Hnone].
  - reflexivity.
  - intros r [<-|[]] Hu. discriminate Hu.
  - split; [exact (Hsome "Miso") | exact Hnone].
Defined.

(** X2. Create, then read: on a store produced by the handlers, a create
    that succeeds had a string description, and the identifier it returns
    finds, for the same caller and category, the record that was just
    stored. *)
Theorem Recipes_post_then_get (manage_get_recipe : Recipe -> Response)
  (d d' : Db) (user_id category new_id : Z) (name : string)
  (description : option string) :
  reachable d ->
  Recipes_post d user_id category name description =
  (Return (created new_id), d') ->
  exists s,
    description = Some s /\
    Recipee_get manage_get_recipe d' user_id category new_id =
    manage_get_recipe
      (mkRecipe new_id (Py.lower name) (Py.lower s) category user_id).
Proof.
  intros Hd Hpost.
  assert (Hd' : reachable d').
  { replace d' with (snd (Recipes_post d user_id category name description))
      by now rewrite Hpost.
    now constructor. }
  apply reachable_ids_fresh in Hd' as [_ Hnd].
  unfold Recipes_post in Hpost.
  destruct (name_validator name); [|discriminate].
  destruct description as [s|]; [|discriminate].
  destruct (first _); [discriminate|].
  simpl in Hpost. injection Hpost as <- <-.
  exists s. split; [reflexivity|].
  unfold Recipee_get, filter_by. rewrite first_filter_find.
  cbn [table] in *.
  pose proof (find_with_id _
                (mkRecipe (next_id d) (Py.lower name) (Py.lower s)
                   category user_id) Hnd) as Hfind.
  cbn [created_by category_id recipe_id] in Hfind.
  rewrite Hfind; [reflexivity|].
  apply in_or_app. right. now left.
Qed.

Lemma Recipes_post_then_get_witness :
  exists s,
    Some "Beef" = Some s /\
    Recipee_get (fun r => (Jsonified (DumpData r), 200))
      (snd (Recipes_post db_soup 7 1 "Stew" (Some "Beef"))) 7 1 2 =
    (Jsonified (DumpData (mkRecipe 2 (Py.lower "Stew") (Py.lower s) 1 7)),
     200).
Proof.
  apply (Recipes_post_then_get (fun r => (Jsonified (DumpData r), 200))
           db_soup (snd (Recipes_post db_soup 7 1 "Stew" (Some "Beef")))
           7 1 2 "Stew" (Some "Beef")).
  - exact (reach_post _ 7 1 "Soup" (Some "Leek") reach_empty).
  - reflexivity.
Defined.

(* ================================================================== *)
(** ** Delete *)

(** X3. A successful delete removes exactly one row, the first one with
    the caller, category and identifier of the request; the rows before
    and after it stay in place and the next identifier is not wound
    back. *)
Theorem Recipee_delete_frame (d d' : Db) (user_id category rid : Z) :
  Recipee_delete d user_id category rid = (deleted, d') ->
  exists pre the_recipe post,
    table d = (pre ++ the_recipe :: post)%list /\
    forallb (fun x => negb (with_id user_id category rid x)) pre = true /\
    with_id user_id category rid the_recipe = true /\
    d' = {| table := (pre ++ post)%list; next_id := next_id d |}.
Proof.
  unfold Recipee_delete, filter_by.
  destruct (first _) as [the_recipe|] eqn:Hfirst; [|discriminate].
  intros [= <-].
  destruct (first_filter_split _ _ _ Hfirst) as (pre & post & Ht & Hpre & Hr).
  exists pre, the_recipe, post. repeat split; auto.
  now rewrite Ht, remove_first_split.
Qed.

Lemma Recipee_delete_frame_witness :
  exists pre the_recipe post,
    table db_soup_stew = (pre ++ the_recipe :: post)%list /\
    forallb (fun x => negb (with_id 7 1 1 x)) pre = true /\
    with_id 7 1 1 the_recipe = true /\
    {| table := [mkRecipe 2 "stew" "beef" 1 7]; next_id := 3 |} =
    {| table := (pre ++ post)%list; next_id := next_id db_soup_stew |}.
Proof.
  apply (Recipee_delete_frame db_soup_stew
           {| table := [mkRecipe 2 "stew" "beef" 1 7]; next_id := 3 |} 7 1 1).
  reflexivity.
Defined.

Lemma find_after_remove_first (l : list Recipe) (user_id category rid : Z) :
  NoDup (map recipe_id l) ->
  find (with_id user_id category rid)
       (remove_first (with_id user_id category rid) l) = None.
Proof.
  intros Hnd. apply find_none_iff. intros x Hx.
  destruct (with_id user_id category rid x) eqn:Hw; [|reflexivity].
  destruct (first (filter (with_id user_id category rid) l)) as [r|] eqn:Hf.
  - destruct (first_filter_split _ _ _ Hf) as (pre & post & -> & Hpre & Hr).
    rewrite remove_first_split in Hx by assumption.
    rewrite map_app in Hnd. simpl in Hnd. apply NoDup_remove_2 in Hnd.
    elim Hnd. rewrite <- map_app.
    replace (recipe_id r) with (recipe_id x); [now apply in_map|].
    unfold with_id in Hw, Hr.
    apply andb_true_iff in Hw as [_ Hw]. apply andb_true_iff in Hr as [_ Hr].
    apply Z.eqb_eq in Hw, Hr. congruence.
  - rewrite first_filter_find in Hf.
    apply remove_first_incl in Hx.
    apply find_none with (x := x) in Hf; [congruence | exact Hx].
Qed.

(** X4. After a delete request, on a store produced by the handlers, the
    identifier is gone for the caller whether or not it existed before:
    reading it is answered with 404, editing it with 404 and no change,
    and deleting it again with the "does not exist" message, status 200
    and no change. *)
Theorem Recipee_delete_then_absent (manage_get_recipe : Recipe -> Response)
  (d : Db) (user_id category rid : Z) (name description : option string) :
  reachable d ->
  let d' := snd (Recipee_delete d user_id category rid) in
  Recipee_get manage_get_recipe d' user_id category rid =
  (Message ("You don't have a recipe with id " ++ Py.str rid), 404) /\
  Recipee_put d' user_id category rid name description =
  ((Message ("No recipe with id " ++ Py.str rid), 404), d') /\
  Recipee_delete d' user_id category rid =
  ((Message ("recipe id " ++ Py.str rid ++ " does not exist"), 200), d').
Proof.
  intros Hd d'.
  assert (Hnone : first (filter_by (with_id user_id category rid) d') = None).
  { unfold filter_by. rewrite first_filter_find. subst d'.
    unfold Recipee_delete. unfold filter_by. rewrite first_filter_find.
    destruct (find _ (table d)) eqn:Hf; [|exact Hf]. simpl.
    apply find_after_remove_first. now apply reachable_ids_fresh. }
  clearbody d'. unfold Recipee_get, Recipee_put, Recipee_delete.
  now rewrite Hnone.
Qed.

Lemma Recipee_delete_then_absent_witness :
  Recipee_get (fun r => (Jsonified (DumpData r), 200))
    (snd (Recipee_delete db_soup_stew 7 1 1)) 7 1 1 =
  (Message "You don't have a recipe with id 1", 404) /\
  Recipee_put (snd (Recipee_delete db_soup_stew 7 1 1)) 7 1 1
    (Some "Broth") None =
  ((Message "No recipe with id 1", 404),
   snd (Recipee_delete db_soup_stew 7 1 1)) /\
  Recipee_delete (snd (Recipee_delete db_soup_stew 7 1 1)) 7 1 1 =
  ((Message "recipe id 1 does not exist", 200),
   snd (Recipee_delete db_soup_stew 7 1 1)).
Proof.
  apply (Recipee_delete_then_absent (fun r => (Jsonified (DumpData r), 200)) db_soup_stew
           7 1 1 (Some "Broth") None).
  exact (reach_post _ 7 1 "Stew" (Some "Beef")
           (reach_post _ 7 1 "Soup" (Some "Leek") reach_empty)).
Defined.

(* ================================================================== *)
(** ** Update: the refusals and the round trip *)

(** X5. An update of an existing recipe that supplies a non-empty name
    failing the naming policy is refused with the message of lines 196 and
    197, carries the default status 200 rather than 400, and changes
    nothing, whatever description came with it. *)
Theorem Recipee_put_invalid_name (d : Db) (user_id category rid : Z)
  (the_recipe : Recipe) (name : string) (description : option string) :
  first (filter_by (with_id user_id category rid) d) = Some the_recipe ->
  name <> "" ->
  name_validator name = false ->
  Recipee_put d user_id category rid (Some name) description =
  ((Message "The recipe name should comprise alphabetical characters and can be more than one word",
    200), d).
Proof.
  intros Hfirst Hne Hv. unfold Recipee_put. rewrite Hfirst.
  destruct name as [|a s]; [now elim Hne|].
  cbn [Py.truthy Py.str_truthy negb].
  now rewrite name_validator_lower, Hv.
Qed.

Lemma Recipee_put_invalid_name_witness :
  Recipee_put db_soup_stew 7 1 2 (Some "Stew2") (Some "Lamb") =
  ((Message "The recipe name should comprise alphabetical characters and can be more than one word",
    200), db_soup_stew).
Proof.
  apply (Recipee_put_invalid_name db_soup_stew 7 1 2
           (mkRecipe 2 "stew" "beef" 1 7) "Stew2" (Some "Lamb")).
  - reflexivity.
  - discriminate.
  - reflexivity.
Defined.

Lemma find_update_first (p : Recipe -> bool) (f : Recipe -> Recipe)
  (l : list Recipe) :
  (forall r, p r = true -> p (f r) = true) ->
  find p (update_first p f l) = option_map f (find p l).
Proof.
  intros Hf. induction l as [|x l IH]; simpl; [reflexivity|].
  destruct (p x) eqn:Hx; simpl.
  - now rewrite (Hf x Hx).
  - now rewrite Hx, IH.
Qed.

(** X6. Update, then read: after a successful update the identifier finds,
    for the same caller and category, the record with its new name and
    description, both in lower case, and with the identifier, category and
    owner it had. *)
Theorem Recipee_put_then_get (manage_get_recipe : Recipe -> Response)
  (d d' : Db) (user_id category rid : Z) (name description : option string) :
  Recipee_put d user_id category rid name description = (edited, d') ->
  exists the_recipe,
    first (filter_by (with_id user_id category rid) d) = Some the_recipe /\
    Recipee_get manage_get_recipe d' user_id category rid =
    manage_get_recipe
      (mkRecipe (recipe_id the_recipe)
         (stored_value name (recipe_name the_recipe))
         (stored_value description (ingredients the_recipe))
         (category_id the_recipe) (created_by the_recipe)).
Proof.
  unfold Recipee_put.
  destruct (first _) as [the_recipe|] eqn:Hfirst; [|discriminate].
  destruct (name_validator _); [|discriminate].
  intros [= <-]. exists the_recipe. split; [reflexivity|].
  unfold Recipee_get, filter_by in *. rewrite first_filter_find in *.
  cbn [table]. rewrite find_update_first by (intros r Hr; exact Hr).
  rewrite Hfirst. cbn [option_map]. f_equal. f_equal.
  - now destruct name as [[|a s]|].
  - now destruct description as [[|a s]|].
Qed.

Lemma Recipee_put_then_get_witness :
  exists the_recipe,
    first (filter_by (with_id 7 1 2) db_soup_stew) = Some the_recipe /\
    Recipee_get (fun r => (Jsonified (DumpData r), 200))
      (snd (Recipee_put db_soup_stew 7 1 2 (Some "Irish Stew") None)) 7 1 2 =
    (Jsonified
       (DumpData
          (mkRecipe (recipe_id the_recipe)
             (stored_value (Some "Irish Stew") (recipe_name the_recipe))
             (stored_value None (ingredients the_recipe))
             (category_id the_recipe) (created_by the_recipe))), 200).
Proof.
  apply (Recipee_put_then_get (fun r => (Jsonified (DumpData r), 200)) db_soup_stew
           (snd (Recipee_put db_soup_stew 7 1 2 (Some "Irish Stew") None))
           7 1 2 (Some "Irish Stew") None).
  reflexivity.
Defined.

(* ================================================================== *)
(** ** What a refused request leaves behind *)

(** X7. A write that is not answered with its success response changes
    nothing: a create that raises or answers without status 201, an update
    without the "edited" answer and a delete without the "deleted" answer
    all leave the database they were given. *)
Theorem refused_write_keeps_db (d : Db) (user_id category rid : Z)
  (name : string) (description new_name new_description : option string) :
  (status_of (fst (Recipes_post d user_id category name description))
   <> Some 201 ->
   snd (Recipes_post d user_id category name description) = d) /\
  (fst (Recipee_put d user_id category rid new_name new_description)
   <> edited ->
   snd (Recipee_put d user_id category rid new_name new_description) = d) /\
  (fst (Recipee_delete d user_id category rid) <> deleted ->
   snd (Recipee_delete d user_id category rid) = d).
Proof.
  split; [|split].
  - unfold Recipes_post. destruct (name_validator name); [|reflexivity].
    destruct description as [s|]; [|reflexivity].
    destruct (first _); [reflexivity|]. simpl. intros H. now elim H.
  - unfold Recipee_put. destruct (first _); [|reflexivity].
    destruct (name_validator _); [|reflexivity]. simpl. intros H. now elim H.
  - unfold Recipee_delete. destruct (first _); [|reflexivity].
    simpl. intros H. now elim H.
Qed.

Lemma refused_write_keeps_db_witness :
  snd (Recipes_post db_soup 7 1 "SOUP" (Some "Miso")) = db_soup /\
  snd (Recipes_post db_soup 7 1 "Broth" None) = db_soup /\
  snd (Recipee_put db_soup 7 1 1 (Some "Soup!") None) = db_soup /\
  snd (Recipee_delete db_soup 8 1 1) = db_soup.
Proof.
  destruct (refused_write_keeps_db db_soup 7 1 1 "SOUP" (Some "Miso")
              (Some "Soup!") None) as (Hpost & Hput & _).
  destruct (refused_write_keeps_db db_soup 7 1 1 "Broth" None
              (Some "Soup!") None) as (Hnull & _ & _).
  destruct (refused_write_keeps_db db_soup 8 1 1 "SOUP" (Some "Miso")
              (Some "Soup!") None) as (_ & _ & Hdel).
  split; [apply Hpost; discriminate|].
  split; [apply Hnull; discriminate|].
  split; [apply Hput; discriminate | apply Hdel; discriminate].
Defined.

(* ================================================================== *)
(** ** Scoping of writes *)

Section ScopeFacts.

Variables (p q : Recipe -> bool).
Hypothesis p_not_q : forall r, p r = true -> q r = false.

Lemma filter_update_first (f : Recipe -> Recipe) (l : list Recipe) :
  (forall r, p r = true -> q (f r) = false) ->
  filter q (update_first p f l) = filter q l.
Proof.
  intros Hf. induction l as [|x l IH]; simpl; [reflexivity|].
  destruct (p x) eqn:Hx; simpl.
  - now rewrite (Hf x Hx), (p_not_q x Hx).
  - now rewrite IH.
Qed.

Lemma filter_remove_first (l : list Recipe) :
  filter q (remove_first p l) = filter q l.
Proof.
  induction l as [|x l IH]; simpl; [reflexivity|].
  destruct (p x) eqn:Hx; simpl.
  - now rewrite (p_not_q x Hx).
  - now rewrite IH.
Qed.

End ScopeFacts.

Lemma with_id_in_category (user_id category rid : Z) (r : Recipe) :
  with_id user_id category rid r = true -> in_category user_id category r = true.
Proof.
  unfold with_id, in_category. intros H. now apply andb_true_iff in H as [H _].
Qed.

(** X8. A write by a caller in a category touches only that caller's rows
    of that category.  Any selection that excludes those rows, such as the
    rows of another owner or of another category, is the same before and
    after a create, an update or a delete, whatever the outcome. *)
Theorem writes_stay_in_scope (select : Recipe -> bool) (d : Db)
  (user_id category rid : Z) (name : string)
  (description new_name new_description : option string) :
  (forall r, in_category user_id category r = true -> select r = false) ->
  filter_by select (snd (Recipes_post d user_id category name description))
  = filter_by select d /\
  filter_by select
    (snd (Recipee_put d user_id category rid new_name new_description))
  = filter_by select d /\
  filter_by select (snd (Recipee_delete d user_id category rid))
  = filter_by select d.
Proof.
  intros Hsel. unfold filter_by. repeat split.
  - destruct (Recipes_post_db d user_id category name description)
      as [-> | (s & _ & _ & _ & ->)]; [reflexivity|]. simpl.
    rewrite filter_app. simpl. rewrite Hsel; [apply app_nil_r|].
    unfold in_category. simpl. now rewrite !Z.eqb_refl.
  - unfold Recipee_put. destruct (first _); [|reflexivity].
    destruct (name_validator _); [|reflexivity]. simpl.
    apply filter_update_first.
    + intros x Hx. apply Hsel. now apply with_id_in_category in Hx.
    + intros x Hx. apply Hsel. now apply with_id_in_category in Hx.
  - unfold Recipee_delete. destruct (first _); [|reflexivity]. simpl.
    apply filter_remove_first.
    intros x Hx. apply Hsel. now apply with_id_in_category in Hx.
Qed.

(** User 8 owns "soup" and user 7 owns "soup" and "stew"; the rows of
    user 8 are untouched by what user 7 does. *)
Lemma writes_stay_in_scope_witness :
  filter_by (owned_by 8)
    (snd (Recipes_post db_shared 7 1 "Dal" (Some "Lentils")))
  = [mkRecipe 3 "soup" "miso" 1 8] /\
  filter_by (owned_by 8) (snd (Recipee_put db_shared 7 1 2 (Some "Dal") None))
  = [mkRecipe 3 "soup" "miso" 1 8] /\
  filter_by (owned_by 8) (snd (Recipee_delete db_shared 7 1 2))
  = [mkRecipe 3 "soup" "miso" 1 8].
Proof.
  apply (writes_stay_in_scope (owned_by 8) db_shared 7 1 2
           "Dal" (Some "Lentils") (Some "Dal") None).
  intros r Hr. unfold in_category in Hr. unfold owned_by.
  apply andb_true_iff in Hr as [Hu _]. apply Z.eqb_eq in Hu.
  apply Z.eqb_neq. lia.
Defined.

(* ================================================================== *)
(** ** Reading and writing one recipe across owners *)

(** X9. On a store produced by the handlers, a stored recipe is found by
    its owner under its category and identifier, and is handed to the
    single-record serializer as stored. *)
Theorem Recipee_get_own (manage_get_recipe : Recipe -> Response)
  (d : Db) (r : Recipe) :
  reachable d -> In r (table d) ->
  Recipee_get manage_get_recipe d (created_by r) (category_id r)
    (recipe_id r) = manage_get_recipe r.
Proof.
  intros Hd Hin. apply reachable_ids_fresh in Hd as [_ Hnd].
  unfold Recipee_get, filter_by.
  now rewrite first_filter_find, find_with_id.
Qed.

Lemma Recipee_get_own_witness :
  Recipee_get (fun r => (Jsonified (DumpData r), 200)) db_soup_stew 7 1 2 =
  (Jsonified (DumpData (mkRecipe 2 "stew" "beef" 1 7)), 200).
Proof.
  apply (Recipee_get_own (fun r => (Jsonified (DumpData r), 200)) db_soup_stew
           (mkRecipe 2 "stew" "beef" 1 7)).
  - exact (reach_post _ 7 1 "Stew" (Some "Beef")
             (reach_post _ 7 1 "Soup" (Some "Leek") reach_empty)).
  - simpl. right. now left.
Defined.

(** X10. On a store produced by the handlers, the identifier of a recipe
    is of no use to another caller, nor under another category: reading it
    is answered with 404, editing it with 404, deleting it with the "does
    not exist" message, and the database stays as it was. *)
Theorem Recipee_foreign_recipe (manage_get_recipe : Recipe -> Response)
  (d : Db) (r : Recipe) (user_id category : Z)
  (name description : option string) :
  reachable d -> In r (table d) ->
  created_by r <> user_id \/ category_id r <> category ->
  Recipee_get manage_get_recipe d user_id category (recipe_id r) =
  (Message ("You don't have a recipe with id " ++ Py.str (recipe_id r)), 404)
  /\
  Recipee_put d user_id category (recipe_id r) name description =
  ((Message ("No recipe with id " ++ Py.str (recipe_id r)), 404), d) /\
  Recipee_delete d user_id category (recipe_id r) =
  ((Message ("recipe id " ++ Py.str (recipe_id r) ++ " does not exist"), 200),
   d).
Proof.
  intros Hd Hin Hforeign. apply reachable_ids_fresh in Hd as [_ Hnd].
  assert (Hnone : first (filter_by (with_id user_id category (recipe_id r)) d)
                  = None).
  { unfold filter_by. rewrite first_filter_find. apply find_none_iff.
    intros x Hx. destruct (with_id _ _ _ x) eqn:Hw; [|reflexivity].
    unfold with_id in Hw. apply andb_true_iff in Hw as [Hw Hid].
    apply andb_true_iff in Hw as [Hu Hc]. apply Z.eqb_eq in Hu, Hc, Hid.
    assert (x = r) by (apply (NoDup_map_eq recipe_id (table d)); auto).
    subst x. tauto. }
  unfold Recipee_get, Recipee_put, Recipee_delete. now rewrite Hnone.
Qed.

Lemma Recipee_foreign_recipe_witness :
  Recipee_get (fun r => (Jsonified (DumpData r), 200)) db_soup_stew 8 1 2 =
  (Message "You don't have a recipe with id 2", 404) /\
  Recipee_put db_soup_stew 8 1 2 (Some "Mine") None =
  ((Message "No recipe with id 2", 404), db_soup_stew) /\
  Recipee_delete db_soup_stew 8 1 2 =
  ((Message "recipe id 2 does not exist", 200), db_soup_stew).
Proof.
  apply (Recipee_foreign_recipe (fun r => (Jsonified (DumpData r), 200)) db_soup_stew
           (mkRecipe 2 "stew" "beef" 1 7) 8 1 (Some "Mine") None).
  - exact (reach_post _ 7 1 "Stew" (Some "Beef")
             (reach_post _ 7 1 "Soup" (Some "Leek") reach_empty)).
  - simpl. right. now left.
  - left. discriminate.
Defined.

(* ================================================================== *)
(** ** Uniqueness of names, without renames *)

Lemma reachable_without_rename_reachable (d : Db) :
  reachable_without_rename d -> reachable d.
Proof. induction 1; now constructor. Qed.

(** An update that carries no name keeps every row's owner, category and
    folded name. *)
Lemma Recipee_put_keeps_scope_keys (d : Db) (user_id category rid : Z)
  (name description : option string) :
  Py.truthy name = false ->
  map scope_key
    (table (snd (Recipee_put d user_id category rid name description)))
  = map scope_key (table d).
Proof.
  intros Hn. unfold Recipee_put.
  destruct (first _) as [the_recipe|] eqn:Hfirst; [|reflexivity].
  destruct (name_validator _); [|reflexivity]. cbn [snd table].
  unfold filter_by in Hfirst.
  destruct (first_filter_split _ _ _ Hfirst) as (pre & post & Ht & Hpre & Hr).
  rewrite Ht, update_first_split by assumption.
  rewrite !map_app. simpl. f_equal. f_equal.
  unfold scope_key. simpl. rewrite Hn. simpl.
  now rewrite lower_idempotent.
Qed.

(** X11. As long as no update carries a name, the names stay unique:
    every store built from the empty one by creates, deletes and updates
    whose name argument is [None] or empty holds no two recipes of one
    owner and category whose names are equal up to case. *)
Theorem unique_names_without_rename (d : Db) :
  reachable_without_rename d -> unique_names (table d).
Proof.
  induction 1 as [ | d u c name desc Hd IH | d u c rid name desc Hn Hd IH
                   | d u c rid Hd IH ].
  - constructor.
  - apply Recipes_post_unique_names; [|exact IH].
    now apply reachable_stored_ok, reachable_without_rename_reachable.
  - unfold unique_names. now rewrite Recipee_put_keeps_scope_keys.
  - now apply Recipee_delete_unique_names.
Qed.

Lemma unique_names_without_rename_witness :
  unique_names
    (table (snd (Recipee_put
                   (snd (Recipes_post db_soup_stew 7 1 "SOUP" (Some "Miso")))
                   7 1 2 (Some "") (Some "Lamb")))).
Proof.
  apply (unique_names_without_rename
           (snd (Recipee_put
                   (snd (Recipes_post db_soup_stew 7 1 "SOUP" (Some "Miso")))
                   7 1 2 (Some "") (Some "Lamb")))).
  apply keep_put; [reflexivity|].
  apply keep_post. apply keep_post. apply keep_post. exact keep_empty.
Defined.

(* ================================================================== *)
(** ** The resolver: page size and search *)

Section ResolverBounds.

Variables per_page_min per_page_max : Z.

Lemma effective_per_page_le_max (args : Args) :
  effective_per_page per_page_min per_page_max args <= per_page_max.
Proof.
  unfold effective_per_page.
  match goal with
  | |- (if ?n >? _ then _ else _) <= _ => destruct (Z.gtb_spec n per_page_max)
  end; lia.
Qed.

(** X12. The page size handed to [paginate] never exceeds the configured
    maximum, whatever the request asks for and however the bounds are set;
    when the bounds are in order it is not below the minimum either. *)
Theorem effective_per_page_bounds (args : Args) :
  effective_per_page per_page_min per_page_max args <= per_page_max /\
  (per_page_min <= per_page_max ->
   per_page_min <= effective_per_page per_page_min per_page_max args).
Proof.
  split; [apply effective_per_page_le_max|].
  intros Hmm. unfold effective_per_page.
  destruct (get (arg_per_page args) 10) as [n|].
  - destruct (Z.ltb_spec n per_page_min);
      [destruct (Z.gtb_spec per_page_min per_page_max)
      |destruct (Z.gtb_spec n per_page_max)]; lia.
  - destruct (Z.gtb_spec per_page_min per_page_max); lia.
Qed.

End ResolverBounds.

Lemma effective_per_page_bounds_witness :
  effective_per_page 5 20 (mkArgs Missing Missing (Given (Some 1000))) <= 20 /\
  5 <= effective_per_page 5 20 (mkArgs Missing Missing (Given (Some 1000))).
Proof.
  destruct (effective_per_page_bounds 5 20
              (mkArgs Missing Missing (Given (Some 1000)))) as [Hmax Hmin].
  split; [exact Hmax | apply Hmin; lia].
Defined.

Lemma lower_truthy (s : string) :
  Py.str_truthy (Py.lower s) = Py.str_truthy s.
Proof. now destruct s. Qed.

(** X14. The search does not depend on the case of the search string:
    two requests whose search strings are equal up to case, and whose page
    arguments agree, have the same outcome, whatever [jsonify] and
    [paginate] do. *)
Theorem manage_get_search_case_insensitive (jsonify : Payload -> Outcome)
  (paginate : BaseQuery -> option Z -> Z -> Result (list Recipe))
  (per_page_min per_page_max : Z)
  (the_recipes : option BaseQuery) (q1 q2 : string)
  (page per_page : Field Z) :
  Py.lower q1 = Py.lower q2 ->
  manage_get jsonify paginate per_page_min per_page_max the_recipes
    (mkArgs (Given (Some q1)) page per_page) =
  manage_get jsonify paginate per_page_min per_page_max the_recipes
    (mkArgs (Given (Some q2)) page per_page).
Proof.
  intros Hq. unfold manage_get, effective_per_page, search.
  cbn [arg_q arg_page arg_per_page get Py.truthy].
  rewrite <- (lower_truthy q1), <- (lower_truthy q2), Hq.
  reflexivity.
Qed.

Lemma manage_get_search_case_insensitive_witness :
  manage_get jsonify_flask (fun query _ _ => Return query) 5 20
    (Some (table db_soup_stew))
    (mkArgs (Given (Some "sTeW")) (Given None) (Given None)) =
  manage_get jsonify_flask (fun query _ _ => Return query) 5 20
    (Some (table db_soup_stew))
    (mkArgs (Given (Some "STEW")) (Given None) (Given None)).
Proof.
  apply (manage_get_search_case_insensitive jsonify_flask
           (fun query _ _ => Return query) 5 20
           (Some (table db_soup_stew)) "sTeW" "STEW" (Given None) (Given None)).
  reflexivity.
Defined.

(* ================================================================== *)
(** ** Repeating a request *)

(** X16. Repeating a create that succeeded yields the duplicate answer and
    changes nothing, on any database: the row the first request stored is
    what the pre-check of the second one finds. *)
Theorem Recipes_post_twice (d d' : Db) (user_id category new_id : Z)
  (name : string) (description : option string) :
  Recipes_post d user_id category name description =
  (Return (created new_id), d') ->
  Recipes_post d' user_id category name description =
  (Return (Message "Recipe already exists", 200), d').
Proof.
  unfold Recipes_post.
  destruct (name_validator name); [|discriminate].
  destruct description as [s|]; [|discriminate].
  destruct (first (filter_by _ d)); [discriminate|].
  simpl. intros [= _ <-].
  unfold filter_by. rewrite first_filter_find. cbn [table].
  destruct (find _ _) eqn:Hf; [reflexivity|].
  apply find_none with
    (x := mkRecipe (next_id d) (Py.lower name) (Py.lower s)
            category user_id) in Hf.
  - unfold named in Hf. simpl in Hf.
    now rewrite !Z.eqb_refl, String.eqb_refl in Hf.
  - apply in_or_app. right. now left.
Qed.

Lemma Recipes_post_twice_witness :
  Recipes_post db_pasta 7 1 "Pasta Bake" (Some "Penne") =
  (Return (Message "Recipe already exists", 200), db_pasta).
Proof.
  apply (Recipes_post_twice empty_db db_pasta 7 1 1 "Pasta Bake"
           (Some "Penne")).
  reflexivity.
Defined.

(** X17. Repeating an update that succeeded succeeds again and leaves the
    database as the first one left it. *)
Theorem Recipee_put_twice (d d' : Db) (user_id category rid : Z)
  (name description : option string) :
  Recipee_put d user_id category rid name description = (edited, d') ->
  Recipee_put d' user_id category rid name description = (edited, d').
Proof.
  unfold Recipee_put at 1.
  destruct (first _) as [r|] eqn:Hfirst; [|discriminate].
  destruct (name_validator _) eqn:Hv; [|discriminate].
  intros [= <-].
  unfold filter_by in Hfirst.
  destruct (first_filter_split _ _ _ Hfirst) as (pre & post & Ht & Hpre & Hr).
  rewrite Ht, update_first_split by assumption.
  set (new_name := Py.lower (if negb (Py.truthy name) then _ else _)) in *.
  set (new_description :=
         Py.lower (if negb (Py.truthy description) then _ else _)) in *.
  set (r' := mkRecipe (recipe_id r) new_name new_description
               (category_id r) (created_by r)).
  assert (Hr' : with_id user_id category rid r' = true) by exact Hr.
  unfold Recipee_put, filter_by. rewrite first_filter_find. cbn [table next_id].
  assert (Hfind : find (with_id user_id category rid) (pre ++ r' :: post)
                  = Some r').
  { clear Ht. induction pre as [|y pre IH]; simpl.
    - now rewrite Hr'.
    - simpl in Hpre. apply andb_true_iff in Hpre as [Hy Hpre].
      apply negb_true_iff in Hy. rewrite Hy. now apply IH. }
  rewrite Hfind. cbn [recipe_name ingredients r'].
  assert (Hsame_name :
            Py.lower (if negb (Py.truthy name) then new_name
                      else match name with Some s => s | None => "" end)
            = new_name).
  { subst new_name. destruct (Py.truthy name); cbn [negb];
      [reflexivity | apply lower_idempotent]. }
  assert (Hsame_description :
            Py.lower (if negb (Py.truthy description) then new_description
                      else match description with Some s => s | None => "" end)
            = new_description).
  { subst new_description. destruct (Py.truthy description); cbn [negb];
      [reflexivity | apply lower_idempotent]. }
  rewrite Hsame_name, Hsame_description, Hv.
  now rewrite update_first_split by assumption.
Qed.

Lemma Recipee_put_twice_witness :
  Recipee_put (snd (Recipee_put db_soup_stew 7 1 2 (Some "Irish Stew") None))
    7 1 2 (Some "Irish Stew") None =
  (edited, snd (Recipee_put db_soup_stew 7 1 2 (Some "Irish Stew") None)).
Proof.
  apply (Recipee_put_twice db_soup_stew
           (snd (Recipee_put db_soup_stew 7 1 2 (Some "Irish Stew") None))
           7 1 2 (Some "Irish Stew") None).
  reflexivity.
Defined.

(* ================================================================== *)
(** ** What is stored *)

(** X18. Whatever sequence of creates, updates and deletes has run, every
    stored recipe has a name that passes the naming policy and is in lower
    case, and a lower-case description. *)
Theorem reachable_rows_valid_lower (d : Db) (r : Recipe) :
  reachable d -> In r (table d) ->
  name_validator (recipe_name r) = true /\
  Py.lower (recipe_name r) = recipe_name r /\
  Py.lower (ingredients r) = ingredients r.
Proof.
  intros Hd Hin. pose proof (reachable_stored_ok d Hd) as Hok.
  rewrite Forall_forall in Hok. exact (Hok r Hin).
Qed.

Lemma reachable_rows_valid_lower_witness :
  name_validator "irish stew" = true /\
  Py.lower "irish stew" = "irish stew" /\
  Py.lower "beef and ale" = "beef and ale".
Proof.
  apply (reachable_rows_valid_lower
           (snd (Recipee_put db_soup_stew 7 1 2 (Some "Irish Stew")
                   (Some "Beef And ALE")))
           (mkRecipe 2 "irish stew" "beef and ale" 1 7)).
  - apply reach_put.
    exact (reach_post _ 7 1 "Stew" (Some "Beef")
             (reach_post _ 7 1 "Soup" (Some "Leek") reach_empty)).
  - simpl. right. now left.
Defined.
